(** * Reset sequencing of the ECP5 Mini clock/reset generator

    A shallow embedding of the reset logic of [_CRG] in
    [litex/soc-hr/ecp5_mini.py]: the power-on-reset countdown [por_count],
    the combinational PLL reset, and the one-second button watchdog built
    on [WaitTimer].  Signals are integers; an assignment to a signal of
    [n] bits keeps the low [n] bits of the assigned value. *)

From Stdlib Require Import ZArith List Bool Lia String.
Import ListNotations.
Local Open Scope Z_scope.

Set Implicit Arguments.

(** ** Signals *)

Module Signal.

(** [sig.eq(v)] on an unsigned signal of [nbits] bits. *)
Definition truncate (nbits v : Z) : Z := v mod 2 ^ nbits.

(** A value used as the condition of [If(...)]: true when non-zero. *)
Definition cond (v : Z) : bool := negb (v =? 0).

(** [~x] on a one-bit signal, as a one-bit value. *)
Definition not1 (v : Z) : Z := truncate 1 (Z.lnot v).

End Signal.

(** ** Platform resources ([platform/ecp5_mini.py]) *)

Module Platform.

Local Open Scope string_scope.
Local Open Scope Z_scope.

Definition resource : Type := string * Z.

(** The names and numbers of the [_io] table. *)
Definition _io : list resource :=
  [ ("clk16", 0); ("rst_n", 0); ("usr_btn", 0); ("user_led", 0);
    ("led", 1); ("led", 2); ("hyperram", 0); ("usb", 0);
    ("spiflash4x", 0); ("spiflash", 0); ("spisdcard", 0); ("sdcard", 0) ].

Inductive error : Type :=
| ConstraintError (name : string).

Inductive result (A : Type) : Type :=
| Ok (a : A)
| Raise (e : error).
Arguments Raise {A} e.

(** Requests thread the list of resources still available and may fail. *)
Definition M (A : Type) : Type := list resource -> result (A * list resource).

Definition ret {A} (a : A) : M A := fun av => Ok (a, av).

Definition bind {A B} (m : M A) (k : A -> M B) : M B :=
  fun av => match m av with
            | Ok (a, av') => k a av'
            | Raise e => Raise e
            end.

(** Modelled from the spec: the resource search behind [platform.request],
    part of the HDL framework and not of the repository.  The spec has no
    more than that a pin can be absent; the source names its resources
    without a number, and the first one of that name is taken here. *)
Fixpoint _lookup (description : list resource) (name : string)
  : option resource :=
  match description with
  | [] => None
  | r :: rest => if String.eqb (fst r) name then Some r else _lookup rest name
  end.

(** Modelled from the spec: the bookkeeping of the same absent framework
    code.  The spec is silent on it; a resource that has been handed out is
    taken off the available ones so that the constructor threads the
    platform the way the source does. *)
Fixpoint remove (r : resource) (description : list resource) : list resource :=
  match description with
  | [] => []
  | x :: rest =>
      if (String.eqb (fst x) (fst r) && (snd x =? snd r))%bool
      then rest else x :: remove r rest
  end.

(** Modelled from the spec: [platform.request] of the HDL framework, which is
    not part of the repository.  The spec describes the button pin as
    possibly absent; the source asks for it with [loose=True] and tests the
    answer against [None], and asks for the other pins strictly.  A request
    that finds its resource takes it out of the available ones. *)
Definition request (name : string) (loose : bool) : M (option resource) :=
  fun av => match _lookup av name with
            | Some r => Ok (Some r, remove r av)
            | None => if loose then Ok (None, av)
                      else Raise (ConstraintError name)
            end.

End Platform.

Notation "x <- m ;; k" := (Platform.bind m (fun x => k))
  (at level 61, m at next level, right associativity).

(** ** The wait-and-trigger timer *)

(** The interface [_CRG] relies on: a constructor taking the duration, a
    clocked step driven by [wait], and the [done] output. *)
Class Timer (T : Type) : Type := {
  timer_new : Z -> T;
  timer_sync : bool -> T -> T;
  timer_done : T -> bool
}.

Module WaitTimer.

Record t : Type := {
  target_ticks : Z;
  elapsed : Z;
  triggered : bool
}.

(** Modelled from the spec: [WaitTimer] is imported from [migen.genlib.misc]
    and is not part of the repository.  It starts IDLE, with [elapsed = 0]
    and [triggered = false]. *)
Definition new (target : Z) : t :=
  {| target_ticks := target; elapsed := 0; triggered := false |}.

(** Modelled from the spec: the clocked step of the absent [WaitTimer].
    While [wait] is true [elapsed] is incremented and [triggered] is set
    once [elapsed >= target_ticks]; a tick with [wait] false resets
    [elapsed] to 0 and [triggered] to false. *)
Definition sync (wait : bool) (s : t) : t :=
  if wait then
    let e := elapsed s + 1 in
    {| target_ticks := target_ticks s;
       elapsed := e;
       triggered := if e >=? target_ticks s then true else triggered s |}
  else
    {| target_ticks := target_ticks s; elapsed := 0; triggered := false |}.

Definition done (s : t) : bool := triggered s.

(** The timer fed with a sequence of [wait] values, oldest first. *)
Definition run (waits : list bool) (s : t) : t :=
  fold_left (fun s w => sync w s) waits s.

(** The states the timer goes through, one per tick, oldest first. *)
Fixpoint trace (waits : list bool) (s : t) : list t :=
  match waits with
  | [] => []
  | w :: rest => sync w s :: trace rest (sync w s)
  end.

End WaitTimer.

#[export] Instance WaitTimer_Timer : Timer WaitTimer.t := {
  timer_new := WaitTimer.new;
  timer_sync := WaitTimer.sync;
  timer_done := WaitTimer.done
}.

(** ** Power-on reset *)

(** The two literals of the source that fix the timing: the reset value of
    [por_count] and the argument of [WaitTimer].  The source has them as
    constants; [default_config] holds its values. *)
Record Config : Type := {
  initial_count : Z;
  target_ticks : Z
}.

Definition default_config : Config :=
  {| initial_count := 2 ^ 12 - 1; target_ticks := 16000000 |}.

(** The reset value of [por_count = Signal(12, reset=2**12-1)], kept to the
    12 bits of the register; for the source's literal that is the literal
    itself. *)
Definition por_count_reset (cfg : Config) : Z :=
  Signal.truncate 12 (initial_count cfg).

(** [por_done.eq(por_count == 0)] *)
Definition por_done (por_count : Z) : Z := Z.b2z (por_count =? 0).

(** [sync.por += If(~por_done, por_count.eq(por_count - 1))] *)
Definition por_sync (por_count : Z) : Z :=
  if Signal.cond (Signal.not1 (por_done por_count))
  then Signal.truncate 12 (por_count - 1)
  else por_count.

(** [por_count] after [n] edges of the reference clock. *)
Definition por_after (n : nat) (por_count : Z) : Z :=
  Nat.iter n por_sync por_count.

(** [por_done] as seen on tick [tick], ticks numbered from 1: the first
    tick shows the reset value, every later one the value left by the
    edges before it. *)
Definition por_ready_on (cfg : Config) (tick : nat) : bool :=
  Signal.cond (por_done (por_after (Nat.pred tick) (por_count_reset cfg))).

Inductive por_reachable (cfg : Config) : Z -> Prop :=
| por_reach_reset : por_reachable cfg (por_count_reset cfg)
| por_reach_sync c : por_reachable cfg c -> por_reachable cfg (por_sync c).

(** ** The clock/reset generator *)

Section CRG.

Context {T : Type} `{Timer T}.

(** What the constructor leaves behind: where [rst_n] comes from ([None]
    when the button could not be requested and the constant 1 stands in),
    and the reset values of the two registers. *)
Record _CRG : Type := {
  usr_btn_pad : option Platform.resource;
  rst_n_pad : option Platform.resource;
  por_reset : Z;
  reset_timer_reset : T
}.

Definition CRG_init (cfg : Config) : Platform.M _CRG :=
  clk16 <- Platform.request "clk16"%string false ;;
  rst_n <- Platform.request "usr_btn"%string true ;;
  out <- Platform.request "rst_n"%string false ;;
  Platform.ret {| usr_btn_pad := rst_n;
                  rst_n_pad := out;
                  por_reset := por_count_reset cfg;
                  reset_timer_reset := timer_new (target_ticks cfg) |}.

(** The pins sampled on a tick: the button pin (high when released) and the
    soft reset line [self.rst]. *)
Record Inputs : Type := {
  usr_btn : bool;
  rst : bool
}.

(** The registers of the [por] clock domain. *)
Record State : Type := {
  por_count : Z;
  reset_timer : T
}.

Definition reset_state (crg : _CRG) : State :=
  {| por_count := por_reset crg; reset_timer := reset_timer_reset crg |}.

(** [rst_n]: the button pin, or the Python integer 1 when
    [platform.request] answered [None]. *)
Definition rst_n (crg : _CRG) (i : Inputs) : Z :=
  match usr_btn_pad crg with
  | Some _ => Z.b2z (usr_btn i)
  | None => 1
  end.

(** [pll.reset.eq(~por_done | ~rst_n | self.rst)] *)
Definition pll_reset (crg : _CRG) (s : State) (i : Inputs) : Z :=
  Signal.truncate 1
    (Z.lor (Z.lor (Z.lnot (por_done (por_count s))) (Z.lnot (rst_n crg i)))
           (Z.b2z (rst i))).

(** [reset_timer.wait.eq(~rst_n)] *)
Definition reset_timer_wait (crg : _CRG) (i : Inputs) : Z :=
  Signal.truncate 1 (Z.lnot (rst_n crg i)).

(** [platform.request("rst_n").eq(~reset_timer.done)] *)
Definition rst_n_out (s : State) : Z :=
  Signal.not1 (Z.b2z (timer_done (reset_timer s))).

(** One edge of the reference clock: both registers sit in the [por]
    domain, which has no reset. *)
Definition sync (crg : _CRG) (i : Inputs) (s : State) : State :=
  {| por_count := por_sync (por_count s);
     reset_timer :=
       timer_sync (Signal.cond (reset_timer_wait crg i)) (reset_timer s) |}.

(** The generator fed with a sequence of inputs, oldest first. *)
Definition run (crg : _CRG) (inputs : list Inputs) (s : State) : State :=
  fold_left (fun s i => sync crg i s) inputs s.

(** The button is seen released on this tick. *)
Definition button_released (crg : _CRG) (i : Inputs) : bool :=
  Signal.cond (rst_n crg i).

End CRG.

(** The generator of the source: the board's pins and the [WaitTimer]. *)
Definition ecp5_mini_CRG (cfg : Config) : Platform.result (_CRG * list Platform.resource) :=
  CRG_init (T := WaitTimer.t) cfg Platform._io.

(** The inputs of a tick with the button pin forced to its released level. *)
Definition released (i : Inputs) : Inputs :=
  {| usr_btn := true; rst := rst i |}.

(** The number of ticks, up to the latest one, for which [wait] has been
    true without a break. *)
Definition held_ticks (waits : list bool) : Z :=
  fold_left (fun n (w : bool) => if w then n + 1 else 0) waits 0.

(** ** The USB PLL *)

(** [usb_pll.reset.eq(~por_done)], of the PLL added when [with_usb_pll] is
    set. *)
Definition usb_pll_reset {T : Type} (s : @State T) : Z :=
  Signal.not1 (por_done (por_count s)).

(** ** Python dictionaries *)

(** A [dict] with string keys: the items in insertion order, one per key. *)
Module Dict.

Section Dict.

Variable V : Type.

Definition t : Type := list (string * V).

Definition keys (d : t) : list string := map fst d.

(** [d[k]]; [None] stands for [KeyError]. *)
Fixpoint getitem (d : t) (k : string) : option V :=
  match d with
  | [] => None
  | (k', v) :: rest => if String.eqb k' k then Some v else getitem rest k
  end.

(** [d[k] = v]: the item of an existing key is replaced where it is, a new
    key goes to the end. *)
Fixpoint setitem (d : t) (k : string) (v : V) : t :=
  match d with
  | [] => [(k, v)]
  | (k', v') :: rest =>
      if String.eqb k' k then (k, v) :: rest else (k', v') :: setitem rest k v
  end.

(** [d.update(other)] *)
Definition update (d other : t) : t :=
  fold_left (fun d kv => setitem d (fst kv) (snd kv)) other d.

End Dict.

End Dict.

(** ** The SoC *)

Module BaseSoC.

(** The values passed as keyword arguments. *)
Inductive value : Type :=
| Str (s : string)
| Int (z : Z)
| Bool (b : bool)
| NoneValue.

(** [mem_map = {"hyperram": 0x20000000}] followed by
    [mem_map.update(SoCCore.mem_map)]; the map of [SoCCore] belongs to the
    framework and is a parameter here. *)
Definition mem_map (SoCCore_mem_map : Dict.t Z) : Dict.t Z :=
  Dict.update [("hyperram"%string, 0x20000000)] SoCCore_mem_map.

(** [kwargs["uart_name"] = "usb_acm"] *)
Definition enforce_uart (kwargs : Dict.t value) : Dict.t value :=
  Dict.setitem kwargs "uart_name"%string (Str "usb_acm").

End BaseSoC.

(** * Properties *)

(** ** Signals of one bit *)

Lemma not1_b2z (b : bool) : Signal.not1 (Z.b2z b) = Z.b2z (negb b).
Proof. destruct b; reflexivity. Qed.

Lemma cond_b2z (b : bool) : Signal.cond (Z.b2z b) = b.
Proof. destruct b; reflexivity. Qed.

Lemma truncate_small (nbits v : Z) :
  0 <= v < 2 ^ nbits -> Signal.truncate nbits v = v.
Proof. intros Hv. unfold Signal.truncate. now apply Z.mod_small. Qed.

(** ** Power-on reset *)

Lemma por_sync_eq (c : Z) :
  por_sync c = if c =? 0 then c else Signal.truncate 12 (c - 1).
Proof.
  unfold por_sync, por_done. rewrite not1_b2z, cond_b2z.
  now destruct (c =? 0).
Qed.

Lemma por_sync_in_range (c : Z) :
  0 <= c < 2 ^ 12 -> por_sync c = Z.max 0 (c - 1).
Proof.
  intros Hc. rewrite por_sync_eq.
  destruct (Z.eqb_spec c 0) as [-> | Hnz]; [reflexivity |].
  rewrite truncate_small by lia. lia.
Qed.

Lemma por_after_in_range (n : nat) (c : Z) :
  0 <= c < 2 ^ 12 -> por_after n c = Z.max 0 (c - Z.of_nat n).
Proof.
  intros Hc. unfold por_after.
  induction n as [| n IH]; simpl Nat.iter.
  - lia.
  - rewrite IH, por_sync_in_range by lia. lia.
Qed.

Lemma por_count_reset_range (cfg : Config) : 0 <= por_count_reset cfg < 2 ^ 12.
Proof. unfold por_count_reset, Signal.truncate. apply Z.mod_pos_bound. lia. Qed.

Lemma por_reachable_range (cfg : Config) (c : Z) :
  por_reachable cfg c -> 0 <= c < 2 ^ 12.
Proof.
  induction 1 as [| c _ IH].
  - apply por_count_reset_range.
  - rewrite por_sync_in_range by exact IH. lia.
Qed.

Lemma por_done_after (n : nat) (c : Z) :
  0 <= c < 2 ^ 12 ->
  Signal.cond (por_done (por_after n c)) = (c <=? Z.of_nat n).
Proof.
  intros Hc. unfold por_done. rewrite cond_b2z, por_after_in_range by exact Hc.
  destruct (Z.leb_spec c (Z.of_nat n)); lia.
Qed.

Lemma por_sync_upto (c : Z) :
  0 <= c <= 2 ^ 12 -> por_sync c = Z.max 0 (c - 1).
Proof.
  intros Hc. rewrite por_sync_eq.
  destruct (Z.eqb_spec c 0) as [-> | Hnz]; [reflexivity |].
  rewrite truncate_small by lia. lia.
Qed.

Lemma por_after_upto (n : nat) (c : Z) :
  0 <= c <= 2 ^ 12 -> por_after n c = Z.max 0 (c - Z.of_nat n).
Proof.
  intros Hc. unfold por_after.
  induction n as [| n IH]; simpl Nat.iter.
  - lia.
  - rewrite IH, por_sync_upto by lia. lia.
Qed.

(** C2.  Start the countdown with [por_count = initial_count], any count
    from 0 up to what the 12 bits of the register count, the source's
    2^12 - 1 among them.  Then [por_done] is false on the ticks 1 to
    [initial_count] and true on every later tick; with [initial_count = 0]
    it is true on the first tick.  Ticks are numbered from 1: tick [tick]
    shows the count left by the [tick - 1] clock edges before it. *)
Theorem por_ready_after_initial_count (initial_count : Z) :
  0 <= initial_count <= 2 ^ 12 ->
  forall tick : nat, (1 <= tick)%nat ->
    Signal.cond (por_done (por_after (Nat.pred tick) initial_count))
    = (initial_count <? Z.of_nat tick).
Proof.
  intros Hic tick Htick. unfold por_done.
  rewrite cond_b2z, por_after_upto by exact Hic.
  destruct (Z.eqb_spec (Z.max 0 (initial_count - Z.of_nat (Nat.pred tick))) 0);
    destruct (Z.ltb_spec initial_count (Z.of_nat tick)); lia.
Qed.

(** The source's own count, 2^12 - 1: not ready on tick 4095, ready on
    tick 4096. *)
Lemma por_ready_after_initial_count_default :
  por_ready_on default_config 4095 = false /\
  por_ready_on default_config 4096 = true.
Proof.
  assert (Hic : 0 <= 4095 <= 2 ^ 12) by (split; discriminate).
  split.
  - exact (@por_ready_after_initial_count 4095 Hic 4095%nat
             (proj1 (Nat.leb_le 1 4095) eq_refl)).
  - exact (@por_ready_after_initial_count 4095 Hic 4096%nat
             (proj1 (Nat.leb_le 1 4096) eq_refl)).
Defined.

(** C6.  From every reachable value of [por_count] a clock edge leaves the
    count as it is or one lower: one lower while [por_done] is false, as it
    is once [por_done] is true; the count never goes below 0, and once
    [por_done] is true it is true after any number of further edges. *)
Theorem por_count_never_rearms (cfg : Config) (c : Z) :
  por_reachable cfg c ->
  (por_sync c = c \/ por_sync c = c - 1) /\
  (Signal.cond (por_done c) = false -> por_sync c = c - 1) /\
  (Signal.cond (por_done c) = true -> por_sync c = c) /\
  0 <= por_sync c /\
  (Signal.cond (por_done c) = true ->
   forall n : nat, Signal.cond (por_done (por_after n c)) = true).
Proof.
  intros Hreach. pose proof (por_reachable_range Hreach) as Hc.
  unfold por_done. rewrite cond_b2z.
  rewrite por_sync_in_range by exact Hc.
  repeat split.
  - lia.
  - intros Hnz. apply Z.eqb_neq in Hnz. lia.
  - intros Hz. apply Z.eqb_eq in Hz. lia.
  - lia.
  - intros Hz n. apply Z.eqb_eq in Hz.
    fold (por_done (por_after n c)).
    rewrite por_done_after by exact Hc.
    apply Z.leb_le. lia.
Qed.

Lemma por_count_never_rearms_at_reset :
  por_sync 4095 = 4095 \/ por_sync 4095 = 4095 - 1.
Proof.
  exact (proj1 (@por_count_never_rearms default_config 4095
                  (por_reach_reset default_config))).
Defined.

Section CRG_properties.

Context {T : Type} `{Timer T}.

Lemma rst_n_bit (crg : @_CRG T) (i : Inputs) :
  rst_n crg i = Z.b2z (button_released crg i).
Proof.
  unfold button_released, rst_n.
  destruct (usr_btn_pad crg); [now rewrite cond_b2z | reflexivity].
Qed.

(** C1.  On every tick [pll.reset] is [~por_done | ~rst_n | self.rst] of the
    values of that tick, one bit wide: it reads no register but
    [por_count], through [por_done].  So it is 1 whenever [por_done] is
    false, and 1 whenever [self.rst] is true. *)
Theorem pll_reset_combinational (crg : @_CRG T) (s : @State T) (i : Inputs) :
  pll_reset crg s i
  = Z.b2z (negb (Signal.cond (por_done (por_count s)))
           || negb (button_released crg i) || rst i)
  /\ (Signal.cond (por_done (por_count s)) = false -> pll_reset crg s i = 1)
  /\ (rst i = true -> pll_reset crg s i = 1).
Proof.
  assert (Heq : pll_reset crg s i
                = Z.b2z (negb (Signal.cond (por_done (por_count s)))
                         || negb (button_released crg i) || rst i)).
  { unfold pll_reset. rewrite rst_n_bit. unfold por_done.
    rewrite cond_b2z.
    destruct (por_count s =? 0), (button_released crg i), (rst i);
      reflexivity. }
  split; [exact Heq |]. rewrite Heq. split.
  - intros ->. reflexivity.
  - intros ->. rewrite orb_true_r. reflexivity.
Qed.

End CRG_properties.

Lemma pll_reset_combinational_during_por :
  pll_reset (T := WaitTimer.t)
    {| usr_btn_pad := Some ("usr_btn"%string, 0); rst_n_pad := Some ("rst_n"%string, 0);
       por_reset := 4095; reset_timer_reset := WaitTimer.new 16000000 |}
    {| por_count := 7; reset_timer := WaitTimer.new 16000000 |}
    {| usr_btn := true; rst := false |} = 1.
Proof.
  apply (proj1 (proj2 (@pll_reset_combinational WaitTimer.t
           {| usr_btn_pad := Some ("usr_btn"%string, 0); rst_n_pad := Some ("rst_n"%string, 0);
              por_reset := 4095; reset_timer_reset := WaitTimer.new 16000000 |}
           {| por_count := 7; reset_timer := WaitTimer.new 16000000 |}
           {| usr_btn := true; rst := false |}))).
  reflexivity.
Defined.

(** ** The wait timer *)

Module WaitTimerFacts.
Import WaitTimer.

Lemma run_app (a b : list bool) (s : t) : run (a ++ b) s = run b (run a s).
Proof. unfold run. apply fold_left_app. Qed.

Lemma sync_target (w : bool) (s : t) : target_ticks (sync w s) = target_ticks s.
Proof. now destruct w. Qed.

Lemma run_target (ws : list bool) (s : t) :
  target_ticks (run ws s) = target_ticks s.
Proof.
  revert s. induction ws as [| w ws IH]; intros s; [reflexivity |].
  change (target_ticks (run ws (sync w s)) = target_ticks s).
  now rewrite IH, sync_target.
Qed.

Lemma sync_false (s : t) : sync false s = new (target_ticks s).
Proof. reflexivity. Qed.

Lemma held_ticks_snoc (ws : list bool) (w : bool) :
  held_ticks (ws ++ [w]) = if w then held_ticks ws + 1 else 0.
Proof. unfold held_ticks. now rewrite fold_left_app. Qed.

Lemma held_ticks_nonneg (ws : list bool) : 0 <= held_ticks ws.
Proof.
  induction ws as [| w ws IH] using rev_ind; [reflexivity |].
  rewrite held_ticks_snoc. destruct w; lia.
Qed.

Lemma held_ticks_repeat (k : nat) : held_ticks (repeat true k) = Z.of_nat k.
Proof.
  induction k as [| k IH]; [reflexivity |].
  cbn [repeat]. rewrite repeat_cons, held_ticks_snoc, IH. lia.
Qed.

(** From IDLE, and for a positive target, the timer counts the ticks for
    which [wait] has been true without a break, and [triggered] tells
    whether they reach the target. *)
Lemma run_new (target : Z) (ws : list bool) :
  0 < target ->
  elapsed (run ws (new target)) = held_ticks ws /\
  triggered (run ws (new target)) = (target <=? held_ticks ws).
Proof.
  intros Hpos. induction ws as [| w ws [IHe IHt]] using rev_ind.
  - split; [reflexivity |]. simpl. symmetry. apply Z.leb_gt. exact Hpos.
  - rewrite run_app, held_ticks_snoc.
    change (run [w] (run ws (new target))) with (sync w (run ws (new target))).
    destruct w; simpl.
    + rewrite run_target, IHe, IHt. simpl. split; [reflexivity |].
      destruct (Z.geb_spec (held_ticks ws + 1) target);
        destruct (Z.leb_spec target (held_ticks ws));
        destruct (Z.leb_spec target (held_ticks ws + 1)); lia || reflexivity.
    + split; [reflexivity |]. symmetry. apply Z.leb_gt. exact Hpos.
Qed.

Lemma trace_app (a b : list bool) (s : t) :
  trace (a ++ b) s = trace a s ++ trace b (run a s).
Proof.
  revert s. induction a as [| w a IH]; intros s; [reflexivity |].
  simpl. now rewrite IH.
Qed.

(** A run of [wait] that stays short of the target triggers on none of its
    ticks. *)
Lemma trace_true_short (k : nat) (s : t) :
  triggered s = false ->
  elapsed s + Z.of_nat k < target_ticks s ->
  Forall (fun s' => triggered s' = false) (trace (repeat true k) s).
Proof.
  revert s. induction k as [| k IH]; intros s Hs Hlt; [constructor |].
  simpl. constructor.
  - simpl. rewrite Hs. destruct (Z.geb_spec (elapsed s + 1) (target_ticks s)); [lia | reflexivity].
  - apply IH; simpl.
    + rewrite Hs. destruct (Z.geb_spec (elapsed s + 1) (target_ticks s)); [lia | reflexivity].
    + lia.
Qed.

End WaitTimerFacts.

(** C3.  For every positive target, with [wait] held true from IDLE the
    timer is triggered after [k] ticks exactly when [k] has reached the
    target: not on the ticks 1 to [target - 1], on tick [target], and on
    every tick after it.  A triggered timer stays triggered over a tick with
    [wait] true, and a tick with [wait] false leaves [elapsed = 0] and
    [triggered = false] whatever the state was. *)
Theorem wait_timer_triggers_on_target (target : Z) :
  0 < target ->
  (forall k : nat,
     WaitTimer.triggered (WaitTimer.run (repeat true k) (WaitTimer.new target))
     = (target <=? Z.of_nat k)) /\
  (forall s : WaitTimer.t,
     WaitTimer.triggered s = true ->
     WaitTimer.triggered (WaitTimer.sync true s) = true) /\
  (forall s : WaitTimer.t,
     WaitTimer.elapsed (WaitTimer.sync false s) = 0 /\
     WaitTimer.triggered (WaitTimer.sync false s) = false).
Proof.
  intros Hpos. repeat split.
  - intros k.
    destruct (WaitTimerFacts.run_new (repeat true k) Hpos) as [_ ->].
    now rewrite WaitTimerFacts.held_ticks_repeat.
  - intros s Hs. simpl. rewrite Hs.
    now destruct (WaitTimer.elapsed s + 1 >=? WaitTimer.target_ticks s).
Qed.

Lemma wait_timer_triggers_on_target_4 :
  WaitTimer.triggered (WaitTimer.run (repeat true 3) (WaitTimer.new 4)) = false /\
  WaitTimer.triggered (WaitTimer.run (repeat true 4) (WaitTimer.new 4)) = true.
Proof.
  assert (Hpos : 0 < 4) by reflexivity.
  split.
  - exact (proj1 (@wait_timer_triggers_on_target 4 Hpos) 3%nat).
  - exact (proj1 (@wait_timer_triggers_on_target 4 Hpos) 4%nat).
Defined.

(** C5 as stated fails for the targets up to 5: with a target of 3 the
    first five ticks of the sequence already hold [wait] long enough, and
    the timer is triggered on the third of them. *)
Lemma wait_timer_short_target_triggers_early :
  ~ Forall (fun s => WaitTimer.triggered s = false)
      (WaitTimer.trace
         (repeat true 5 ++ [false] ++ repeat true (Z.to_nat (3 - 1)))
         (WaitTimer.new 3)).
Proof.
  intros Hall.
  apply Forall_inv_tail, Forall_inv_tail, Forall_inv in Hall.
  discriminate Hall.
Qed.

(** C5, as amended.  For every positive target the timer keeps no memory of
    a broken run: whatever came before, after a tick with [wait] false
    and then [k] ticks with [wait] true it is triggered exactly when [k] has
    reached the target.  In the sequence of 5 ticks true, 1 false and
    [target - 1] true, no tick from the false one on is triggered; for a
    target above 5 no tick of the sequence is. *)
Theorem wait_timer_restarts_from_zero (target : Z) :
  0 < target ->
  (forall (s : WaitTimer.t) (before : list bool) (k : nat),
     WaitTimer.target_ticks s = target ->
     WaitTimer.triggered
       (WaitTimer.run (before ++ [false] ++ repeat true k) s)
     = (target <=? Z.of_nat k)) /\
  Forall (fun s => WaitTimer.triggered s = false)
    (WaitTimer.trace ([false] ++ repeat true (Z.to_nat (target - 1)))
       (WaitTimer.run (repeat true 5) (WaitTimer.new target))) /\
  (5 < target ->
   Forall (fun s => WaitTimer.triggered s = false)
     (WaitTimer.trace
        (repeat true 5 ++ [false] ++ repeat true (Z.to_nat (target - 1)))
        (WaitTimer.new target))).
Proof.
  intros Hpos.
  assert (Hafter : forall s : WaitTimer.t,
             WaitTimer.target_ticks s = target ->
             Forall (fun s' => WaitTimer.triggered s' = false)
               (WaitTimer.trace
                  ([false] ++ repeat true (Z.to_nat (target - 1))) s)).
  { intros s Hs. simpl. constructor; [reflexivity |].
    apply WaitTimerFacts.trace_true_short; simpl; [reflexivity | lia]. }
  split; [| split].
  - intros s before k Hs.
    rewrite !WaitTimerFacts.run_app.
    change (WaitTimer.run [false] (WaitTimer.run before s))
      with (WaitTimer.sync false (WaitTimer.run before s)).
    rewrite WaitTimerFacts.sync_false, WaitTimerFacts.run_target, Hs.
    destruct (WaitTimerFacts.run_new (repeat true k) Hpos) as [_ ->].
    now rewrite WaitTimerFacts.held_ticks_repeat.
  - apply Hafter. now rewrite WaitTimerFacts.run_target.
  - intros Hbig. rewrite WaitTimerFacts.trace_app. apply Forall_app. split.
    + apply (WaitTimerFacts.trace_true_short 5); simpl; [reflexivity | lia].
    + apply Hafter. now rewrite WaitTimerFacts.run_target.
Qed.

Lemma wait_timer_restarts_from_zero_8 :
  Forall (fun s => WaitTimer.triggered s = false)
    (WaitTimer.trace
       (repeat true 5 ++ [false] ++ repeat true (Z.to_nat (8 - 1)))
       (WaitTimer.new 8)).
Proof.
  assert (Hpos : 0 < 8) by reflexivity.
  assert (Hbig : 5 < 8) by reflexivity.
  exact (proj2 (proj2 (@wait_timer_restarts_from_zero 8 Hpos)) Hbig).
Defined.

(** ** Requests *)

Module PlatformFacts.
Import Platform.

Lemma lookup_name (av : list resource) (name : string) (r : resource) :
  _lookup av name = Some r -> fst r = name.
Proof.
  induction av as [| x av IH]; simpl; [discriminate |].
  destruct (String.eqb_spec (fst x) name) as [Heq | _]; [| exact IH].
  intros [= <-]. exact Heq.
Qed.

Lemma lookup_remove (av : list resource) (name : string) (r : resource) :
  fst r <> name -> _lookup (remove r av) name = _lookup av name.
Proof.
  intros Hne. induction av as [| x av IH]; simpl; [reflexivity |].
  destruct (String.eqb_spec (fst x) (fst r)) as [Hxr | Hxr]; simpl.
  - destruct (snd x =? snd r).
    + destruct (String.eqb_spec (fst x) name); [congruence | reflexivity].
    + simpl. now rewrite IH.
  - now rewrite IH.
Qed.

End PlatformFacts.

(** ** The generator, for any timer *)

Section CRG_wiring.

Context {T : Type} `{Timer T}.

Lemma reset_timer_wait_bit (crg : @_CRG T) (i : Inputs) :
  reset_timer_wait crg i = Z.b2z (negb (button_released crg i)).
Proof.
  unfold reset_timer_wait. rewrite rst_n_bit. apply not1_b2z.
Qed.

Lemma reset_timer_sync (crg : @_CRG T) (i : Inputs) (s : State) :
  reset_timer (sync crg i s)
  = timer_sync (negb (button_released crg i)) (reset_timer s).
Proof.
  unfold sync. simpl. now rewrite reset_timer_wait_bit, cond_b2z.
Qed.

Lemma reset_timer_run (crg : @_CRG T) (inputs : list Inputs) (s : State) :
  reset_timer (run crg inputs s)
  = fold_left (fun t w => timer_sync w t)
      (map (fun i => negb (button_released crg i)) inputs) (reset_timer s).
Proof.
  revert s. induction inputs as [| i inputs IH]; intros s; [reflexivity |].
  simpl. fold (run crg inputs (sync crg i s)).
  now rewrite IH, reset_timer_sync.
Qed.

(** What a successful construction leaves in the generator. *)
Lemma CRG_init_Ok (cfg : Config) (av av' : list Platform.resource)
      (crg : @_CRG T) :
  CRG_init cfg av = Platform.Ok (crg, av') ->
  usr_btn_pad crg = Platform._lookup av "usr_btn"%string /\
  por_reset crg = por_count_reset cfg /\
  reset_timer_reset crg = timer_new (target_ticks cfg).
Proof.
  unfold CRG_init, Platform.bind, Platform.request, Platform.ret.
  destruct (Platform._lookup av "clk16"%string) as [clk |] eqn:Hclk;
    [| discriminate].
  pose proof (PlatformFacts.lookup_name _ _ Hclk) as Hname.
  rewrite PlatformFacts.lookup_remove by (rewrite Hname; discriminate).
  destruct (Platform._lookup av "usr_btn"%string) as [btn |] eqn:Hbtn.
  - destruct (Platform._lookup _ "rst_n"%string); [| discriminate].
    intros [= <- _]. now simpl.
  - destruct (Platform._lookup _ "rst_n"%string); [| discriminate].
    intros [= <- _]. now simpl.
Qed.

Lemma button_released_absent (crg : @_CRG T) (i : Inputs) :
  usr_btn_pad crg = None -> button_released crg i = true.
Proof. unfold button_released, rst_n. now intros ->. Qed.

Lemma reset_timer_agree (crg : @_CRG T) (l1 l2 : list Inputs) (s1 s2 : State) :
  reset_timer s1 = reset_timer s2 ->
  map usr_btn l1 = map usr_btn l2 ->
  reset_timer (run crg l1 s1) = reset_timer (run crg l2 s2).
Proof.
  revert l2 s1 s2.
  induction l1 as [| i1 l1 IH]; intros [| i2 l2] s1 s2 Hs Hl;
    try discriminate Hl; [exact Hs |].
  injection Hl as Hi Hl. simpl.
  fold (run crg l1 (sync crg i1 s1)). fold (run crg l2 (sync crg i2 s2)).
  apply IH; [| exact Hl].
  rewrite !reset_timer_sync, Hs.
  unfold button_released, rst_n. now rewrite Hi.
Qed.

(** C10.  The watchdog does not see the reset inputs.  Take two runs of the
    generator whose button inputs agree tick by tick, and let them differ
    at will in [self.rst] and in [por_count], so in [por_done] and in
    [pll.reset]: after every number of ticks the timer is in the same state
    in both and the [rst_n] output is the same. *)
Theorem watchdog_independent_of_resets
        (crg : @_CRG T) (l1 l2 : list Inputs) (s1 s2 : State) :
  reset_timer s1 = reset_timer s2 ->
  map usr_btn l1 = map usr_btn l2 ->
  forall n : nat,
    reset_timer (run crg (firstn n l1) s1)
    = reset_timer (run crg (firstn n l2) s2) /\
    rst_n_out (run crg (firstn n l1) s1)
    = rst_n_out (run crg (firstn n l2) s2).
Proof.
  intros Hs Hl n.
  assert (Ht : reset_timer (run crg (firstn n l1) s1)
               = reset_timer (run crg (firstn n l2) s2)).
  { apply reset_timer_agree; [exact Hs |].
    now rewrite <- !firstn_map, Hl. }
  split; [exact Ht |]. unfold rst_n_out. now rewrite Ht.
Qed.

End CRG_wiring.

Section CRG_button.

Context {T : Type} `{Timer T}.

Lemma run_absent_button (crg crg' : @_CRG T) (inputs : list Inputs) (s : State) :
  usr_btn_pad crg = None ->
  usr_btn_pad crg' <> None ->
  run crg inputs s = run crg' (map released inputs) s.
Proof.
  intros Hnone Hsome. revert s.
  induction inputs as [| i inputs IH]; intros s; [reflexivity |].
  simpl. fold (run crg inputs (sync crg i s)).
  fold (run crg' (map released inputs) (sync crg' (released i) s)).
  rewrite IH. f_equal.
  unfold sync, reset_timer_wait, rst_n. rewrite Hnone.
  destruct (usr_btn_pad crg'); [reflexivity | contradiction].
Qed.

(** C8.  When the platform has no [usr_btn] to give, the generator that is
    built behaves as the one built on the same platform with the button
    added and its pin kept at the released level: [rst_n] is the constant 1,
    and on every tick [reset_timer.wait], [pll.reset] and the registers
    after any run of inputs are the same. *)
Theorem absent_button_is_released
        (cfg : Config) (av av' : list Platform.resource) (crg : @_CRG T) :
  Platform._lookup av "usr_btn"%string = None ->
  CRG_init cfg av = Platform.Ok (crg, av') ->
  exists crg' : @_CRG T,
    CRG_init cfg (("usr_btn"%string, 0) :: av) = Platform.Ok (crg', av') /\
    usr_btn_pad crg' = Some ("usr_btn"%string, 0) /\
    reset_state crg = reset_state crg' /\
    forall (i : Inputs) (s : State) (inputs : list Inputs),
      rst_n crg i = 1 /\
      reset_timer_wait crg i = reset_timer_wait crg' (released i) /\
      pll_reset crg s i = pll_reset crg' s (released i) /\
      run crg inputs s = run crg' (map released inputs) s.
Proof.
  intros Hbtn Hinit.
  destruct (CRG_init_Ok _ _ Hinit) as (Hpad & Hpor & Htimer).
  rewrite Hbtn in Hpad.
  exists {| usr_btn_pad := Some ("usr_btn"%string, 0);
            rst_n_pad := rst_n_pad crg;
            por_reset := por_reset crg;
            reset_timer_reset := reset_timer_reset crg |}.
  split; [| split; [reflexivity | split; [reflexivity |]]].
  - revert Hinit.
    unfold CRG_init, Platform.bind, Platform.request, Platform.ret.
    cbn [Platform._lookup fst snd String.eqb Ascii.eqb Bool.eqb].
    destruct (Platform._lookup av "clk16"%string) as [clk |] eqn:Hclk;
      [| discriminate].
    pose proof (PlatformFacts.lookup_name _ _ Hclk) as Hname.
    rewrite PlatformFacts.lookup_remove by (rewrite Hname; discriminate).
    rewrite Hbtn.
    cbn [Platform.remove fst snd]. rewrite Hname.
    cbn [Platform._lookup Platform.remove fst snd String.eqb Ascii.eqb
         Bool.eqb andb Z.eqb].
    destruct (Platform._lookup (Platform.remove clk av) "rst_n"%string);
      [| discriminate].
    intros [= <- <-]. reflexivity.
  - intros i s inputs.
    assert (Hrst : rst_n crg i = 1) by (unfold rst_n; now rewrite Hpad).
    split; [exact Hrst |]. split; [| split].
    + unfold reset_timer_wait. now rewrite Hrst.
    + unfold pll_reset. now rewrite Hrst.
    + apply run_absent_button; [exact Hpad | discriminate].
Qed.

End CRG_button.

(** ** The watchdog of the source: the generator with [WaitTimer] *)

Lemma held_ticks_suffix {A : Type} (f : A -> bool) (hold before : list A) :
  Forall (fun a => f a = false) hold ->
  Z.of_nat (List.length hold)
  <= held_ticks (map (fun a => negb (f a)) (before ++ hold)).
Proof.
  induction hold as [| a hold IH] using rev_ind; intros Hall.
  - apply WaitTimerFacts.held_ticks_nonneg.
  - apply Forall_app in Hall. destruct Hall as [Hhold Ha].
    apply Forall_inv in Ha.
    rewrite app_assoc, map_app, List.length_app. simpl map.
    rewrite WaitTimerFacts.held_ticks_snoc, Ha.
    specialize (IH Hhold). simpl. lia.
Qed.

(** [held_ticks] of the negated samples reaches [n] exactly when the
    sequence ends with at least [n] ticks on all of which [f] is false. *)
Lemma held_ticks_reaches {A : Type} (f : A -> bool) (l : list A) (n : Z) :
  n <= held_ticks (map (fun a => negb (f a)) l) <->
  exists before hold : list A,
    l = before ++ hold /\ n <= Z.of_nat (List.length hold) /\
    Forall (fun a => f a = false) hold.
Proof.
  split.
  - revert n. induction l as [| a l IH] using rev_ind; intros n Hn.
    + exists [], []. repeat split; [exact Hn | constructor].
    + rewrite map_app in Hn. simpl map in Hn.
      rewrite WaitTimerFacts.held_ticks_snoc in Hn.
      destruct (f a) eqn:Ha; simpl in Hn.
      * exists (l ++ [a]), []. repeat split.
        -- now rewrite app_nil_r.
        -- exact Hn.
        -- constructor.
      * destruct (IH (n - 1)) as (before & hold & -> & Hlen & Hall); [lia |].
        exists before, (hold ++ [a]). repeat split.
        -- now rewrite app_assoc.
        -- rewrite List.length_app. simpl List.length. lia.
        -- apply Forall_app. split; [exact Hall | now constructor].
  - intros (before & hold & -> & Hlen & Hall).
    pose proof (held_ticks_suffix f before Hall). lia.
Qed.

Lemma reset_timer_run_WaitTimer
      (crg : @_CRG WaitTimer.t) (inputs : list Inputs) (s : State) :
  reset_timer (run crg inputs s)
  = WaitTimer.run (map (fun i => negb (button_released crg i)) inputs)
      (reset_timer s).
Proof. rewrite reset_timer_run. reflexivity. Qed.

(** C4.  The generator drives the timer with [wait = ~rst_n], true while
    the button is held, and puts [~done] on the [rst_n] pin.  For a positive
    target the pin is low, the level that asks for the fallback boot, after
    a sequence of inputs exactly when the sequence ends with at least
    [target_ticks] ticks on all of which the button was held. *)
Theorem rst_n_out_low_iff_held
        (cfg : Config) (av av' : list Platform.resource)
        (crg : @_CRG WaitTimer.t) :
  0 < target_ticks cfg ->
  CRG_init cfg av = Platform.Ok (crg, av') ->
  forall inputs : list Inputs,
    (forall (i : Inputs) (s : State),
       Signal.cond (reset_timer_wait crg i) = negb (button_released crg i) /\
       reset_timer (sync crg i s)
       = WaitTimer.sync (negb (button_released crg i)) (reset_timer s)) /\
    rst_n_out (run crg inputs (reset_state crg))
    = Z.b2z (negb (WaitTimer.triggered
                     (reset_timer (run crg inputs (reset_state crg))))) /\
    (rst_n_out (run crg inputs (reset_state crg)) = 0 <->
     exists before hold : list Inputs,
       inputs = before ++ hold /\
       target_ticks cfg <= Z.of_nat (List.length hold) /\
       Forall (fun i => button_released crg i = false) hold).
Proof.
  intros Hpos Hinit inputs.
  destruct (CRG_init_Ok _ _ Hinit) as (_ & _ & Htimer).
  split; [| split].
  - intros i s. split.
    + now rewrite reset_timer_wait_bit, cond_b2z.
    + exact (@reset_timer_sync _ WaitTimer_Timer crg i s).
  - unfold rst_n_out. apply not1_b2z.
  - unfold rst_n_out. rewrite not1_b2z.
    rewrite reset_timer_run_WaitTimer. unfold reset_state. simpl reset_timer.
    rewrite Htimer. simpl timer_done. simpl timer_new. unfold WaitTimer.done.
    destruct (WaitTimerFacts.run_new
                (map (fun i => negb (button_released crg i)) inputs) Hpos)
      as [_ ->].
    rewrite <- (held_ticks_reaches (fun i => button_released crg i)).
    destruct (Z.leb_spec (target_ticks cfg)
                (held_ticks (map (fun i => negb (button_released crg i)) inputs)))
      as [Hle | Hgt]; simpl.
    + split; [intros _; exact Hle | reflexivity].
    + split; [discriminate | lia].
Qed.

Lemma rst_n_out_low_iff_held_default :
  let crg : @_CRG WaitTimer.t :=
    {| usr_btn_pad := Some ("usr_btn"%string, 0);
       rst_n_pad := Some ("rst_n"%string, 0);
       por_reset := 4095;
       reset_timer_reset := WaitTimer.new 16000000 |} in
  let held := {| usr_btn := false; rst := false |} in
  rst_n_out (run crg [held; held] (reset_state crg)) = 0 <->
  exists before hold : list Inputs,
    [held; held] = before ++ hold /\
    target_ticks default_config <= Z.of_nat (List.length hold) /\
    Forall (fun i => button_released crg i = false) hold.
Proof.
  intros crg held.
  assert (Hpos : 0 < target_ticks default_config) by reflexivity.
  assert (Hinit : CRG_init default_config Platform._io
                  = Platform.Ok (crg, skipn 3 Platform._io)) by reflexivity.
  exact (proj2 (proj2 (@rst_n_out_low_iff_held default_config Platform._io
                         (skipn 3 Platform._io) crg Hpos Hinit [held; held]))).
Defined.

Lemma reset_timer_stays_idle (crg : @_CRG WaitTimer.t) (inputs : list Inputs)
      (s : State) :
  usr_btn_pad crg = None ->
  WaitTimer.triggered (reset_timer s) = false ->
  WaitTimer.triggered (reset_timer (run crg inputs s)) = false.
Proof.
  intros Hpad. revert s.
  induction inputs as [| i inputs IH]; intros s Hs; [exact Hs |].
  simpl. fold (run crg inputs (sync crg i s)). apply IH.
  rewrite (@reset_timer_sync _ WaitTimer_Timer crg i s).
  now rewrite button_released_absent by exact Hpad.
Qed.

(** C9.  When the platform has no [usr_btn] to give, [reset_timer.wait] is
    false on every tick, so whatever the configuration and the inputs the
    timer is never triggered and the [rst_n] pin stays at 1, its released
    level. *)
Theorem absent_button_never_triggers
        (cfg : Config) (av av' : list Platform.resource)
        (crg : @_CRG WaitTimer.t) :
  Platform._lookup av "usr_btn"%string = None ->
  CRG_init cfg av = Platform.Ok (crg, av') ->
  forall inputs : list Inputs,
    (forall i : Inputs, Signal.cond (reset_timer_wait crg i) = false) /\
    WaitTimer.triggered (reset_timer (run crg inputs (reset_state crg))) = false /\
    rst_n_out (run crg inputs (reset_state crg)) = 1.
Proof.
  intros Hbtn Hinit inputs.
  destruct (CRG_init_Ok _ _ Hinit) as (Hpad & _ & Htimer).
  rewrite Hbtn in Hpad.
  assert (Hidle : WaitTimer.triggered
                    (reset_timer (run crg inputs (reset_state crg))) = false).
  { apply reset_timer_stays_idle; [exact Hpad |].
    unfold reset_state. simpl reset_timer. now rewrite Htimer. }
  split; [| split].
  - intros i. rewrite reset_timer_wait_bit, cond_b2z.
    now rewrite button_released_absent by exact Hpad.
  - exact Hidle.
  - unfold rst_n_out. simpl timer_done. unfold WaitTimer.done.
    now rewrite Hidle.
Qed.

Lemma absent_button_never_triggers_bare_board :
  let crg : @_CRG WaitTimer.t :=
    {| usr_btn_pad := None;
       rst_n_pad := Some ("rst_n"%string, 0);
       por_reset := 4095;
       reset_timer_reset := WaitTimer.new 16000000 |} in
  let pressed := {| usr_btn := false; rst := false |} in
  rst_n_out (run crg [pressed; pressed; pressed] (reset_state crg)) = 1.
Proof.
  intros crg pressed.
  assert (Hbtn : Platform._lookup [("clk16"%string, 0); ("rst_n"%string, 0)]
                   "usr_btn"%string = None) by reflexivity.
  assert (Hinit : CRG_init default_config
                    [("clk16"%string, 0); ("rst_n"%string, 0)]
                  = Platform.Ok (crg, [])) by reflexivity.
  exact (proj2 (proj2 (@absent_button_never_triggers default_config _ _ crg
                         Hbtn Hinit [pressed; pressed; pressed]))).
Defined.

Lemma absent_button_is_released_bare_board :
  exists crg' : @_CRG WaitTimer.t,
    CRG_init default_config
      [("usr_btn"%string, 0); ("clk16"%string, 0); ("rst_n"%string, 0)]
    = Platform.Ok (crg', []) /\
    usr_btn_pad crg' = Some ("usr_btn"%string, 0).
Proof.
  assert (Hbtn : Platform._lookup [("clk16"%string, 0); ("rst_n"%string, 0)]
                   "usr_btn"%string = None) by reflexivity.
  assert (Hinit : CRG_init default_config
                    [("clk16"%string, 0); ("rst_n"%string, 0)]
                  = Platform.Ok
                      ({| usr_btn_pad := None;
                          rst_n_pad := Some ("rst_n"%string, 0);
                          por_reset := 4095;
                          reset_timer_reset := WaitTimer.new 16000000 |}, []))
    by reflexivity.
  destruct (@absent_button_is_released WaitTimer.t WaitTimer_Timer
              default_config _ _ _ Hbtn Hinit) as (crg' & Hinit' & Hpad & _).
  exists crg'. split; [exact Hinit' | exact Hpad].
Defined.

Lemma watchdog_independent_of_resets_example :
  let crg : @_CRG WaitTimer.t :=
    {| usr_btn_pad := Some ("usr_btn"%string, 0);
       rst_n_pad := Some ("rst_n"%string, 0);
       por_reset := 4095;
       reset_timer_reset := WaitTimer.new 16000000 |} in
  let l1 := [ {| usr_btn := false; rst := false |};
              {| usr_btn := false; rst := false |} ] in
  let l2 := [ {| usr_btn := false; rst := true |};
              {| usr_btn := false; rst := true |} ] in
  let s1 := {| por_count := 0; reset_timer := WaitTimer.new 16000000 |} in
  let s2 := {| por_count := 4095; reset_timer := WaitTimer.new 16000000 |} in
  reset_timer (run crg (firstn 2 l1) s1) = reset_timer (run crg (firstn 2 l2) s2).
Proof.
  intros crg l1 l2 s1 s2.
  assert (Hs : reset_timer s1 = reset_timer s2) by reflexivity.
  assert (Hl : map usr_btn l1 = map usr_btn l2) by reflexivity.
  exact (proj1 (@watchdog_independent_of_resets WaitTimer.t WaitTimer_Timer
                  crg l1 l2 s1 s2 Hs Hl 2%nat)).
Defined.

(** * Further properties of the source *)

(** ** Dictionaries *)

Module DictFacts.

Section DictFacts.

Variable V : Type.

Lemma getitem_setitem (d : Dict.t V) (k k' : string) (v : V) :
  Dict.getitem (Dict.setitem d k v) k'
  = if String.eqb k k' then Some v else Dict.getitem d k'.
Proof.
  induction d as [| [k0 v0] d IH]; simpl.
  - reflexivity.
  - destruct (String.eqb_spec k0 k) as [-> | Hne]; simpl.
    + now destruct (String.eqb k k').
    + rewrite IH.
      destruct (String.eqb_spec k0 k') as [-> | Hne'];
        [| reflexivity].
      destruct (String.eqb_spec k k'); [congruence | reflexivity].
Qed.

Lemma getitem_None (d : Dict.t V) (k : string) :
  Dict.getitem d k = None <-> ~ In k (Dict.keys d).
Proof.
  induction d as [| [k0 v0] d IH]; simpl.
  - tauto.
  - destruct (String.eqb_spec k0 k) as [-> | Hne].
    + split; [discriminate | intros Hn; exfalso; apply Hn; now left].
    + rewrite IH. tauto.
Qed.

Lemma keys_setitem (d : Dict.t V) (k : string) (v : V) :
  Dict.keys (Dict.setitem d k v)
  = if existsb (String.eqb k) (Dict.keys d)
    then Dict.keys d else Dict.keys d ++ [k].
Proof.
  induction d as [| [k0 v0] d IH]; simpl; [reflexivity |].
  rewrite (String.eqb_sym k k0).
  destruct (String.eqb_spec k0 k) as [-> | Hne]; simpl; [reflexivity |].
  change (map fst (Dict.setitem d k v)) with (Dict.keys (Dict.setitem d k v)).
  rewrite IH. now destruct (existsb (String.eqb k) (Dict.keys d)).
Qed.

Lemma NoDup_setitem (d : Dict.t V) (k : string) (v : V) :
  NoDup (Dict.keys d) -> NoDup (Dict.keys (Dict.setitem d k v)).
Proof.
  intros Hd. rewrite keys_setitem.
  destruct (existsb (String.eqb k) (Dict.keys d)) eqn:Hex; [exact Hd |].
  apply NoDup_app; [exact Hd | repeat constructor; intros [] | ].
  intros k' Hin [<- | []].
  assert (Htrue : existsb (String.eqb k) (Dict.keys d) = true).
  { apply existsb_exists. exists k. split; [exact Hin | apply String.eqb_refl]. }
  congruence.
Qed.

Lemma update_snoc (d other : Dict.t V) (k : string) (v : V) :
  Dict.update d (other ++ [(k, v)]) = Dict.setitem (Dict.update d other) k v.
Proof. unfold Dict.update. now rewrite fold_left_app. Qed.

Lemma NoDup_update (d other : Dict.t V) :
  NoDup (Dict.keys d) -> NoDup (Dict.keys (Dict.update d other)).
Proof.
  intros Hd. induction other as [| [k v] other IH] using rev_ind; [exact Hd |].
  rewrite update_snoc. now apply NoDup_setitem.
Qed.

Lemma getitem_app (d d' : Dict.t V) (k : string) :
  Dict.getitem (d ++ d') k
  = match Dict.getitem d k with
    | Some v => Some v
    | None => Dict.getitem d' k
    end.
Proof.
  induction d as [| [k0 v0] d IH]; simpl; [reflexivity |].
  now destruct (String.eqb k0 k).
Qed.

(** After [d.update(other)] a key has the value [other] gives it, and the
    value it had in [d] when [other] does not have the key. *)
Lemma getitem_update (d other : Dict.t V) (k : string) :
  NoDup (Dict.keys other) ->
  Dict.getitem (Dict.update d other) k
  = match Dict.getitem other k with
    | Some v => Some v
    | None => Dict.getitem d k
    end.
Proof.
  induction other as [| [k0 v0] other IH] using rev_ind; intros Hnd;
    [reflexivity |].
  unfold Dict.keys in Hnd. rewrite map_app in Hnd. simpl in Hnd.
  apply NoDup_remove in Hnd. rewrite app_nil_r in Hnd.
  destruct Hnd as [Hnd Hnotin].
  rewrite update_snoc, getitem_setitem, getitem_app, (IH Hnd). simpl.
  destruct (String.eqb_spec k0 k) as [-> | Hne].
  - apply getitem_None in Hnotin. now rewrite Hnotin.
  - now destruct (Dict.getitem other k).
Qed.

End DictFacts.

End DictFacts.

(** ** The memory map and the keyword arguments of [BaseSoC] *)

(** X1.  Whatever map [SoCCore] brings, [self.mem_map["hyperram"]] is
    defined: it is the origin [SoCCore] gives to that name when it has one,
    for the update comes after the board's own entry, and 0x20000000
    otherwise.  Every entry of [SoCCore]'s map is in the result with its
    value, and no key appears twice. *)
Theorem mem_map_after_update (SoCCore_mem_map : Dict.t Z) :
  NoDup (Dict.keys SoCCore_mem_map) ->
  Dict.getitem (BaseSoC.mem_map SoCCore_mem_map) "hyperram"%string
  = Some (match Dict.getitem SoCCore_mem_map "hyperram"%string with
          | Some origin => origin
          | None => 0x20000000
          end) /\
  (forall (k : string) (origin : Z),
     Dict.getitem SoCCore_mem_map k = Some origin ->
     Dict.getitem (BaseSoC.mem_map SoCCore_mem_map) k = Some origin) /\
  (forall k : string,
     k <> "hyperram"%string ->
     Dict.getitem (BaseSoC.mem_map SoCCore_mem_map) k
     = Dict.getitem SoCCore_mem_map k) /\
  NoDup (Dict.keys (BaseSoC.mem_map SoCCore_mem_map)).
Proof.
  intros Hnd. unfold BaseSoC.mem_map. repeat split.
  - rewrite DictFacts.getitem_update by exact Hnd.
    now destruct (Dict.getitem SoCCore_mem_map "hyperram").
  - intros k origin Hk.
    rewrite DictFacts.getitem_update by exact Hnd. now rewrite Hk.
  - intros k Hk.
    rewrite DictFacts.getitem_update by exact Hnd.
    destruct (Dict.getitem SoCCore_mem_map k); [reflexivity |].
    cbn [Dict.getitem].
    destruct (String.eqb_spec "hyperram" k); [congruence | reflexivity].
  - apply DictFacts.NoDup_update. repeat constructor. intros [].
Qed.

Lemma mem_map_after_update_example :
  Dict.getitem
    (BaseSoC.mem_map [("rom"%string, 0); ("sram"%string, 0x10000000)])
    "hyperram"%string
  = Some 0x20000000.
Proof.
  assert (Hnd : NoDup (Dict.keys [("rom"%string, 0); ("sram"%string, 0x10000000)])).
  { apply NoDup_cons; [intros [Heq | []]; discriminate Heq |].
    apply NoDup_cons; [intros [] | apply NoDup_nil]. }
  exact (proj1 (@mem_map_after_update
                  [("rom"%string, 0); ("sram"%string, 0x10000000)] Hnd)).
Defined.

(** X2.  The UART is forced to the USB one: after
    [kwargs["uart_name"] = "usb_acm"] the arguments name ["usb_acm"]
    whatever the caller passed, every other argument is as the caller
    passed it, and the keys stay distinct. *)
Theorem uart_name_enforced (kwargs : Dict.t BaseSoC.value) :
  Dict.getitem (BaseSoC.enforce_uart kwargs) "uart_name"%string
  = Some (BaseSoC.Str "usb_acm") /\
  (forall k : string,
     k <> "uart_name"%string ->
     Dict.getitem (BaseSoC.enforce_uart kwargs) k = Dict.getitem kwargs k) /\
  (NoDup (Dict.keys kwargs) ->
   NoDup (Dict.keys (BaseSoC.enforce_uart kwargs))).
Proof.
  unfold BaseSoC.enforce_uart. repeat split.
  - now rewrite DictFacts.getitem_setitem.
  - intros k Hk. rewrite DictFacts.getitem_setitem.
    destruct (String.eqb_spec "uart_name" k); [congruence | reflexivity].
  - apply DictFacts.NoDup_setitem.
Qed.

Lemma uart_name_enforced_over_serial :
  Dict.getitem
    (BaseSoC.enforce_uart
       [("uart_name"%string, BaseSoC.Str "serial");
        ("cpu_type"%string, BaseSoC.Str "vexriscv")])
    "cpu_type"%string
  = Some (BaseSoC.Str "vexriscv").
Proof.
  apply (proj1 (proj2 (@uart_name_enforced
           [("uart_name"%string, BaseSoC.Str "serial");
            ("cpu_type"%string, BaseSoC.Str "vexriscv")]))).
  discriminate.
Defined.

(** ** The registers of the generator over a run *)

Section CRG_registers.

Context {T : Type} `{Timer T}.

Lemma por_count_run (crg : @_CRG T) (inputs : list Inputs) (s : State) :
  por_count (run crg inputs s)
  = por_after (List.length inputs) (por_count s).
Proof.
  revert s. induction inputs as [| i inputs IH]; intros s; [reflexivity |].
  simpl run. fold (run crg inputs (sync crg i s)).
  rewrite IH. unfold por_after. simpl List.length.
  now rewrite Nat.iter_succ_r.
Qed.

Lemma por_count_from_reset (cfg : Config) (av av' : list Platform.resource)
      (crg : @_CRG T) (inputs : list Inputs) :
  CRG_init cfg av = Platform.Ok (crg, av') ->
  por_count (run crg inputs (reset_state crg))
  = Z.max 0 (por_count_reset cfg - Z.of_nat (List.length inputs)).
Proof.
  intros Hinit. destruct (CRG_init_Ok _ _ Hinit) as (_ & Hpor & _).
  rewrite por_count_run. unfold reset_state. simpl por_count. rewrite Hpor.
  apply por_after_in_range, por_count_reset_range.
Qed.

(** X3.  The power-on countdown runs on the clock alone: after any [n]
    ticks from reset [por_count] is the reset value less [n], stopped at 0,
    whatever the button and [self.rst] did on those ticks. *)
Theorem por_count_counts_ticks_only
        (cfg : Config) (av av' : list Platform.resource) (crg : @_CRG T) :
  CRG_init cfg av = Platform.Ok (crg, av') ->
  forall inputs : list Inputs,
    por_count (run crg inputs (reset_state crg))
    = Z.max 0 (por_count_reset cfg - Z.of_nat (List.length inputs)).
Proof.
  intros Hinit inputs. exact (@por_count_from_reset cfg av av' crg inputs Hinit).
Qed.

(** X4.  [self.rst] reaches no register: two runs from the same state
    whose button inputs agree tick by tick end in the same state, however
    their soft resets differ. *)
Theorem registers_ignore_soft_reset
        (crg : @_CRG T) (l1 l2 : list Inputs) (s : State) :
  map usr_btn l1 = map usr_btn l2 ->
  run crg l1 s = run crg l2 s.
Proof.
  revert l2 s. induction l1 as [| i1 l1 IH]; intros [| i2 l2] s Hl;
    try discriminate Hl; [reflexivity |].
  injection Hl as Hi Hl. simpl.
  fold (run crg l1 (sync crg i1 s)). fold (run crg l2 (sync crg i2 s)).
  replace (sync crg i2 s) with (sync crg i1 s); [now apply IH |].
  unfold sync, reset_timer_wait, rst_n. now rewrite Hi.
Qed.

Lemma pll_reset_from_reset
      (cfg : Config) (av av' : list Platform.resource) (crg : @_CRG T)
      (inputs : list Inputs) (i : Inputs) :
  CRG_init cfg av = Platform.Ok (crg, av') ->
  pll_reset crg (run crg inputs (reset_state crg)) i
  = if Z.of_nat (List.length inputs) <? por_count_reset cfg
    then 1
    else Z.b2z (negb (button_released crg i) || rst i).
Proof.
  intros Hinit.
  unfold pll_reset. rewrite rst_n_bit.
  rewrite (@por_count_from_reset cfg av av' crg inputs Hinit).
  pose proof (por_count_reset_range cfg) as Hrange.
  unfold por_done.
  destruct (Z.ltb_spec (Z.of_nat (List.length inputs)) (por_count_reset cfg))
    as [Hlt | Hge].
  - replace (Z.max 0 (por_count_reset cfg - Z.of_nat (List.length inputs)) =? 0)
      with false by (symmetry; apply Z.eqb_neq; lia).
    now destruct (button_released crg i), (rst i).
  - replace (Z.max 0 (por_count_reset cfg - Z.of_nat (List.length inputs)) =? 0)
      with true by (symmetry; apply Z.eqb_eq; lia).
    now destruct (button_released crg i), (rst i).
Qed.

(** X5.  The PLL reset over a run.  On the ticks that follow fewer than
    [por_count]'s reset value of clock edges [pll.reset] is 1 whatever the
    inputs; on every later tick it is [~rst_n | self.rst] of that tick. *)
Theorem pll_reset_over_run
        (cfg : Config) (av av' : list Platform.resource) (crg : @_CRG T) :
  CRG_init cfg av = Platform.Ok (crg, av') ->
  forall (inputs : list Inputs) (i : Inputs),
    pll_reset crg (run crg inputs (reset_state crg)) i
    = if Z.of_nat (List.length inputs) <? por_count_reset cfg
      then 1
      else Z.b2z (negb (button_released crg i) || rst i).
Proof.
  intros Hinit inputs i. exact (@pll_reset_from_reset cfg av av' crg inputs i Hinit).
Qed.

(** X6.  The USB PLL is reset by power-on alone: [usb_pll.reset] is 1 on
    the ticks that follow fewer than [por_count]'s reset value of clock
    edges and 0 on every later one, whatever the button and [self.rst] do;
    and whenever it is 1 the reset of the main PLL is 1 too. *)
Theorem usb_pll_reset_over_run
        (cfg : Config) (av av' : list Platform.resource) (crg : @_CRG T) :
  CRG_init cfg av = Platform.Ok (crg, av') ->
  forall (inputs : list Inputs) (i : Inputs),
    usb_pll_reset (run crg inputs (reset_state crg))
    = Z.b2z (Z.of_nat (List.length inputs) <? por_count_reset cfg) /\
    (usb_pll_reset (run crg inputs (reset_state crg)) = 1 ->
     pll_reset crg (run crg inputs (reset_state crg)) i = 1).
Proof.
  intros Hinit inputs i.
  assert (Husb : usb_pll_reset (run crg inputs (reset_state crg))
                 = Z.b2z (Z.of_nat (List.length inputs) <? por_count_reset cfg)).
  { unfold usb_pll_reset, por_done. rewrite not1_b2z.
    rewrite (@por_count_from_reset cfg av av' crg inputs Hinit).
    pose proof (por_count_reset_range cfg) as Hrange. f_equal.
    destruct (Z.ltb_spec (Z.of_nat (List.length inputs)) (por_count_reset cfg));
      [apply negb_true_iff, Z.eqb_neq | apply negb_false_iff, Z.eqb_eq]; lia. }
  split; [exact Husb |].
  rewrite Husb, (@pll_reset_from_reset cfg av av' crg inputs i Hinit).
  now destruct (Z.of_nat (List.length inputs) <? por_count_reset cfg).
Qed.

End CRG_registers.

Lemma por_count_counts_ticks_only_example :
  let crg : @_CRG WaitTimer.t :=
    {| usr_btn_pad := Some ("usr_btn"%string, 0);
       rst_n_pad := Some ("rst_n"%string, 0);
       por_reset := 4095;
       reset_timer_reset := WaitTimer.new 16000000 |} in
  let pressed := {| usr_btn := false; rst := true |} in
  por_count (run crg [pressed; pressed; pressed] (reset_state crg))
  = Z.max 0 (por_count_reset default_config - 3).
Proof.
  intros crg pressed.
  assert (Hinit : CRG_init default_config Platform._io
                  = Platform.Ok (crg, skipn 3 Platform._io)) by reflexivity.
  exact (@por_count_counts_ticks_only WaitTimer.t WaitTimer_Timer
           default_config _ _ crg Hinit [pressed; pressed; pressed]).
Defined.

Lemma registers_ignore_soft_reset_example :
  let crg : @_CRG WaitTimer.t :=
    {| usr_btn_pad := Some ("usr_btn"%string, 0);
       rst_n_pad := Some ("rst_n"%string, 0);
       por_reset := 4095;
       reset_timer_reset := WaitTimer.new 16000000 |} in
  run crg [ {| usr_btn := false; rst := false |};
            {| usr_btn := true; rst := false |} ] (reset_state crg)
  = run crg [ {| usr_btn := false; rst := true |};
              {| usr_btn := true; rst := true |} ] (reset_state crg).
Proof.
  intros crg.
  apply (@registers_ignore_soft_reset WaitTimer.t WaitTimer_Timer crg).
  reflexivity.
Defined.

Lemma pll_reset_over_run_example :
  let crg : @_CRG WaitTimer.t :=
    {| usr_btn_pad := Some ("usr_btn"%string, 0);
       rst_n_pad := Some ("rst_n"%string, 0);
       por_reset := 4095;
       reset_timer_reset := WaitTimer.new 16000000 |} in
  let idle := {| usr_btn := true; rst := false |} in
  pll_reset crg (run crg [idle; idle] (reset_state crg)) idle = 1.
Proof.
  intros crg idle.
  assert (Hinit : CRG_init default_config Platform._io
                  = Platform.Ok (crg, skipn 3 Platform._io)) by reflexivity.
  exact (@pll_reset_over_run WaitTimer.t WaitTimer_Timer
           default_config _ _ crg Hinit [idle; idle] idle).
Defined.

Lemma usb_pll_reset_over_run_example :
  let crg : @_CRG WaitTimer.t :=
    {| usr_btn_pad := Some ("usr_btn"%string, 0);
       rst_n_pad := Some ("rst_n"%string, 0);
       por_reset := 0;
       reset_timer_reset := WaitTimer.new 16000000 |} in
  let pressed := {| usr_btn := false; rst := true |} in
  usb_pll_reset (run crg [pressed] (reset_state crg)) = 0.
Proof.
  intros crg pressed.
  assert (Hinit : CRG_init {| initial_count := 0; target_ticks := 16000000 |}
                    Platform._io
                  = Platform.Ok (crg, skipn 3 Platform._io)) by reflexivity.
  exact (proj1 (@usb_pll_reset_over_run WaitTimer.t WaitTimer_Timer
                  _ _ _ crg Hinit [pressed] pressed)).
Defined.

(** ** The watchdog and the power-on reset together *)

Lemma held_ticks_le_length (ws : list bool) :
  held_ticks ws <= Z.of_nat (List.length ws).
Proof.
  induction ws as [| w ws IH] using rev_ind; [reflexivity |].
  rewrite WaitTimerFacts.held_ticks_snoc, List.length_app. simpl List.length.
  destruct w; lia.
Qed.

(** The [rst_n] pin after a run from reset, for a positive target. *)
Lemma rst_n_out_from_reset
      (cfg : Config) (av av' : list Platform.resource)
      (crg : @_CRG WaitTimer.t) (inputs : list Inputs) :
  0 < target_ticks cfg ->
  CRG_init cfg av = Platform.Ok (crg, av') ->
  rst_n_out (run crg inputs (reset_state crg))
  = Z.b2z (negb (target_ticks cfg
                 <=? held_ticks
                       (map (fun i => negb (button_released crg i)) inputs))).
Proof.
  intros Hpos Hinit.
  destruct (CRG_init_Ok _ _ Hinit) as (_ & _ & Htimer).
  unfold rst_n_out. rewrite not1_b2z, reset_timer_run_WaitTimer.
  unfold reset_state. simpl reset_timer. rewrite Htimer.
  simpl timer_done. simpl timer_new. unfold WaitTimer.done.
  now destruct (WaitTimerFacts.run_new
                  (map (fun i => negb (button_released crg i)) inputs) Hpos)
    as [_ ->].
Qed.

(** X7.  No fallback request comes early: for a positive target the
    [rst_n] pin is 1 after every run from reset of fewer than
    [target_ticks] ticks, whatever the button did. *)
Theorem rst_n_out_high_before_target
        (cfg : Config) (av av' : list Platform.resource)
        (crg : @_CRG WaitTimer.t) :
  0 < target_ticks cfg ->
  CRG_init cfg av = Platform.Ok (crg, av') ->
  forall inputs : list Inputs,
    Z.of_nat (List.length inputs) < target_ticks cfg ->
    rst_n_out (run crg inputs (reset_state crg)) = 1.
Proof.
  intros Hpos Hinit inputs Hshort.
  rewrite (@rst_n_out_from_reset cfg av av' crg inputs Hpos Hinit).
  pose proof (held_ticks_le_length
                (map (fun i => negb (button_released crg i)) inputs)) as Hle.
  rewrite length_map in Hle.
  destruct (Z.leb_spec (target_ticks cfg)
              (held_ticks (map (fun i => negb (button_released crg i)) inputs)));
    [lia | reflexivity].
Qed.

(** X8.  The watchdog cannot fire during power-on reset: when the target
    is above [por_count]'s reset value, as 16000000 is above 4095, the
    [rst_n] pin is 1 on every tick on which [por_done] is still false. *)
Theorem rst_n_out_high_during_por
        (cfg : Config) (av av' : list Platform.resource)
        (crg : @_CRG WaitTimer.t) :
  por_count_reset cfg < target_ticks cfg ->
  CRG_init cfg av = Platform.Ok (crg, av') ->
  forall inputs : list Inputs,
    Signal.cond (por_done (por_count (run crg inputs (reset_state crg)))) = false ->
    rst_n_out (run crg inputs (reset_state crg)) = 1.
Proof.
  intros Hbelow Hinit inputs Hpor.
  pose proof (por_count_reset_range cfg) as Hrange.
  assert (Hpos : 0 < target_ticks cfg) by lia.
  rewrite (@por_count_from_reset _ _ cfg av av' crg inputs Hinit) in Hpor.
  unfold por_done in Hpor. rewrite cond_b2z in Hpor. apply Z.eqb_neq in Hpor.
  rewrite (@rst_n_out_from_reset cfg av av' crg inputs Hpos Hinit).
  pose proof (held_ticks_le_length
                (map (fun i => negb (button_released crg i)) inputs)) as Hle.
  rewrite length_map in Hle.
  destruct (Z.leb_spec (target_ticks cfg)
              (held_ticks (map (fun i => negb (button_released crg i)) inputs)));
    [lia | reflexivity].
Qed.

(** X9.  A fallback request finds the system clock in reset: for a positive
    target, when the [rst_n] pin is 0 after a run from reset, the run ends
    with at least [target_ticks] ticks on each of which [pll.reset] was 1,
    whatever [por_count] was. *)
Theorem rst_n_out_low_implies_pll_reset
        (cfg : Config) (av av' : list Platform.resource)
        (crg : @_CRG WaitTimer.t) :
  0 < target_ticks cfg ->
  CRG_init cfg av = Platform.Ok (crg, av') ->
  forall inputs : list Inputs,
    rst_n_out (run crg inputs (reset_state crg)) = 0 ->
    exists before hold : list Inputs,
      inputs = before ++ hold /\
      target_ticks cfg <= Z.of_nat (List.length hold) /\
      Forall (fun i => forall s : State, pll_reset crg s i = 1) hold.
Proof.
  intros Hpos Hinit inputs Hlow.
  rewrite (@rst_n_out_from_reset cfg av av' crg inputs Hpos Hinit) in Hlow.
  destruct (Z.leb_spec (target_ticks cfg)
              (held_ticks (map (fun i => negb (button_released crg i)) inputs)))
    as [Hle | Hgt]; [| discriminate Hlow].
  apply (held_ticks_reaches (fun i => button_released crg i)) in Hle.
  destruct Hle as (before & hold & Heq & Hlen & Hheld).
  exists before, hold. split; [exact Heq |]. split; [exact Hlen |].
  apply Forall_impl with (2 := Hheld).
  intros i Hi s. unfold pll_reset. rewrite rst_n_bit, Hi.
  unfold por_done. now destruct (por_count s =? 0), (rst i).
Qed.

Lemma rst_n_out_high_before_target_example :
  let crg : @_CRG WaitTimer.t :=
    {| usr_btn_pad := Some ("usr_btn"%string, 0);
       rst_n_pad := Some ("rst_n"%string, 0);
       por_reset := 4095;
       reset_timer_reset := WaitTimer.new 16000000 |} in
  let pressed := {| usr_btn := false; rst := false |} in
  rst_n_out (run crg [pressed; pressed] (reset_state crg)) = 1.
Proof.
  intros crg pressed.
  assert (Hpos : 0 < target_ticks default_config) by reflexivity.
  assert (Hinit : CRG_init default_config Platform._io
                  = Platform.Ok (crg, skipn 3 Platform._io)) by reflexivity.
  assert (Hshort : Z.of_nat (List.length [pressed; pressed])
                   < target_ticks default_config) by reflexivity.
  exact (@rst_n_out_high_before_target default_config _ _ crg Hpos Hinit
           [pressed; pressed] Hshort).
Defined.

Lemma rst_n_out_high_during_por_example :
  let crg : @_CRG WaitTimer.t :=
    {| usr_btn_pad := Some ("usr_btn"%string, 0);
       rst_n_pad := Some ("rst_n"%string, 0);
       por_reset := 4095;
       reset_timer_reset := WaitTimer.new 16000000 |} in
  let pressed := {| usr_btn := false; rst := false |} in
  rst_n_out (run crg [pressed] (reset_state crg)) = 1.
Proof.
  intros crg pressed.
  assert (Hbelow : por_count_reset default_config < target_ticks default_config)
    by reflexivity.
  assert (Hinit : CRG_init default_config Platform._io
                  = Platform.Ok (crg, skipn 3 Platform._io)) by reflexivity.
  assert (Hpor : Signal.cond
                   (por_done (por_count (run crg [pressed] (reset_state crg))))
                 = false) by reflexivity.
  exact (@rst_n_out_high_during_por default_config _ _ crg Hbelow Hinit
           [pressed] Hpor).
Defined.

Lemma rst_n_out_low_implies_pll_reset_example :
  let crg : @_CRG WaitTimer.t :=
    {| usr_btn_pad := Some ("usr_btn"%string, 0);
       rst_n_pad := Some ("rst_n"%string, 0);
       por_reset := 4095;
       reset_timer_reset := WaitTimer.new 2 |} in
  let pressed := {| usr_btn := false; rst := false |} in
  exists before hold : list Inputs,
    [pressed; pressed] = before ++ hold /\
    2 <= Z.of_nat (List.length hold) /\
    Forall (fun i => forall s : State, pll_reset crg s i = 1) hold.
Proof.
  intros crg pressed.
  assert (Hpos : 0 < target_ticks {| initial_count := 4095; target_ticks := 2 |})
    by reflexivity.
  assert (Hinit : CRG_init {| initial_count := 4095; target_ticks := 2 |}
                    Platform._io
                  = Platform.Ok (crg, skipn 3 Platform._io)) by reflexivity.
  assert (Hlow : rst_n_out (run crg [pressed; pressed] (reset_state crg)) = 0)
    by reflexivity.
  exact (@rst_n_out_low_implies_pll_reset _ _ _ crg Hpos Hinit
           [pressed; pressed] Hlow).
Defined.
